(** * ingest.py: loading a CSV file into SQL Server

    A shallow embedding of [src/ingest.py] (functions
    [load_csv_to_sql_server] and [main]) and the properties of its
    control flow: which errors escape, which are printed, when the
    destination is touched, and how connections are opened and released.

    The script talks to a file system, to pandas, to pyodbc and to
    SQLAlchemy.  Their answers are collected in a record [World] of
    oracles; the script itself is written in a small monad that threads
    the destination database, the console, a log of the external calls
    and the one local variable whose binding the code inspects
    ([conn], through ['conn' in locals()]). *)

From Stdlib Require Import ZArith String List Lia.
From stdpp Require Import base strings list gmap pretty.

Local Open Scope string_scope.

(** ** Python values *)

(** Exceptions.  Every class below derives from Python's [Exception];
    asynchronous [BaseException]s (keyboard interrupts, interpreter
    exit) are outside the model. *)
Inductive exn_class : Type :=
| FileNotFoundError
| ValueError
| LibraryError (cls : string).

Record exn : Type := Exn { exn_cls : exn_class; exn_msg : string }.

(** [str(e)] for an exception built from one message argument. *)
Definition str (e : exn) : string := exn_msg e.

(** An argument that is either [None] or a [str]. *)
Definition py_str : Type := option string.

(** Truthiness of [None] and of strings: only a non-empty string is true. *)
Definition truthy (v : py_str) : bool :=
  match v with
  | Some (String _ _) => true
  | _ => false
  end.

(** [x or d] for a string default [d]. *)
Definition py_or (x : py_str) (d : string) : py_str :=
  if truthy x then x else Some d.

(** [f"{v}"] *)
Definition fmt (v : py_str) : string :=
  match v with
  | Some s => s
  | None => "None"
  end.

Definition nl : string := String (Ascii.ascii_of_nat 10) EmptyString.

(** ** Data model *)

(** The parsed CSV: a header and the data rows below it. *)
Record DataFrame : Type := mkDataFrame {
  columns : list string;
  rows : list (list string)
}.

(** [len(df)] *)
Definition len (df : DataFrame) : nat := length (rows df).

(** [df.empty]: some axis has length zero. *)
Definition empty (df : DataFrame) : bool :=
  Nat.eqb (length (rows df)) 0 || Nat.eqb (length (columns df)) 0.

(** The destination: the tables of the database, by name. *)
Abbreviation destination := (gmap string DataFrame).

(** The SQLAlchemy engine is determined by its URL. *)
Record Engine : Type := mkEngine { url : string }.

(** A pyodbc connection object. *)
Record Connection : Type := mkConnection { dsn : string }.

(** A connection handed out by an engine. *)
Record EngineConnection : Type := mkEngineConnection { engine_of : Engine }.

(** External calls, in the order the run makes them, each with the
    exception it raised, if any. *)
Inductive event : Type :=
| EvReadCsv (path delimiter encoding : string) (raised : option exn)
| EvPyodbcConnect (connection_string : string) (raised : option exn)
| EvCreateEngine (engine_url : string) (raised : option exn)
| EvToSql (table if_exists : string) (raised : option exn)
| EvEngineConnect (raised : option exn)
| EvExecute (sql : string) (raised : option exn)
| EvEngineConnectionClose
| EvReadSql (sql : string) (raised : option exn)
| EvConnClose.

(** What the libraries and the outside world answer.  [None] for a
    fault oracle means that the call does not raise.  A run puts each
    question at most once, so a function per question loses nothing;
    two runs may live in two worlds. *)
Record World : Type := mkWorld {
  w_isfile : string -> bool;
  w_read_csv : string -> string -> string -> exn + DataFrame;
  w_head_repr : DataFrame -> string;
  w_pyodbc_connect : string -> option exn;
  w_quote_plus : string -> string;
  w_create_engine : string -> option exn;
  w_to_sql_fault :
    Engine -> destination -> string -> DataFrame -> string -> option (exn * destination);
  w_engine_connect : Engine -> destination -> option exn;
  w_execute_scalar : Engine -> destination -> string -> exn + Z;
  w_read_sql_count : Engine -> destination -> string -> exn + Z
}.

(** ** The state threaded through a run *)

Record State : Type := mkState {
  db : destination;
  stdout : list string;
  trace : list event;
  conn : option Connection
}.

Definition initial (d : destination) : State :=
  {| db := d; stdout := []; trace := []; conn := None |}.

(** How a block of statements ends: it falls through with a value, it
    executes [return], or it raises. *)
Inductive completion (A : Type) : Type :=
| Normal (a : A)
| Return_
| Raise (e : exn).

Arguments Normal {A} a.
Arguments Return_ {A}.
Arguments Raise {A} e.

Definition M (A : Type) : Type := State -> completion A * State.

#[global] Instance M_ret : MRet M := fun A a s => (Normal a, s).

#[global] Instance M_bind : MBind M := fun A B f m s =>
  match m s with
  | (Normal a, s') => f a s'
  | (Return_, s') => (Return_, s')
  | (Raise e, s') => (Raise e, s')
  end.

(** [raise e] *)
Definition raise {A : Type} (e : exn) : M A := fun s => (Raise e, s).

(** [return] *)
Definition return_ {A : Type} : M A := fun s => (Return_, s).

(** [try: body  except Exception as e: handler e] *)
Definition try_except {A : Type} (body : M A) (handler : exn -> M A) : M A :=
  fun s =>
    match body s with
    | (Raise e, s') => handler e s'
    | r => r
    end.

(** [try: body  finally: fin]; an abrupt completion of [fin] replaces
    the completion of [body]. *)
Definition try_finally {A : Type} (body : M A) (fin : M unit) : M A :=
  fun s =>
    match body s with
    | (c, s') =>
        match fin s' with
        | (Normal _, s'') => (c, s'')
        | (Return_, s'') => (Return_, s'')
        | (Raise e, s'') => (Raise e, s'')
        end
    end.

(** A function call: the body runs in a fresh frame, [return] ends the
    call normally, and the caller's frame is back when the call is over. *)
Definition def (body : M unit) : M unit :=
  fun s =>
    match body {| db := db s; stdout := stdout s; trace := trace s; conn := None |} with
    | (c, s') =>
        (match c with Return_ => Normal tt | _ => c end,
         {| db := db s'; stdout := stdout s'; trace := trace s'; conn := conn s |})
    end.

(** ** Primitive statements *)

(** [print(line)]; writing to the console is taken not to raise. *)
Definition print (line : string) : M unit :=
  fun s => (Normal tt,
            {| db := db s; stdout := stdout s ++ [line]; trace := trace s; conn := conn s |}).

Definition log (ev : event) : M unit :=
  fun s => (Normal tt,
            {| db := db s; stdout := stdout s; trace := trace s ++ [ev]; conn := conn s |}).

Definition get_db : M destination := fun s => (Normal (db s), s).

Definition put_db (d : destination) : M unit :=
  fun s => (Normal tt,
            {| db := d; stdout := stdout s; trace := trace s; conn := conn s |}).

(** ['conn' in locals()] together with the value bound, if any. *)
Definition local_conn : M (option Connection) := fun s => (Normal (conn s), s).

(** [conn = c] *)
Definition assign_conn (c : Connection) : M unit :=
  fun s => (Normal tt,
            {| db := db s; stdout := stdout s; trace := trace s; conn := Some c |}).

(** ** The destination driver *)

(** Modelled from the spec: [DataFrame.to_sql] is pandas code, outside
    this repository.  Its conflict policies follow section 4.4 of the
    specification: [fail] errors when the table exists, [replace]
    discards the existing table and creates it anew from the dataset,
    [append] adds the rows to an existing table and fails on a schema
    mismatch; a table that does not exist yet is created under every
    policy, and any other policy name is refused. *)
Definition to_sql_table (d : destination) (table : string) (df : DataFrame)
    (if_exists : string) : exn + destination :=
  if negb (String.eqb if_exists "fail" || String.eqb if_exists "replace"
           || String.eqb if_exists "append")
  then inl (Exn ValueError ("'" +:+ if_exists +:+ "' is not valid for if_exists"))
  else
    match d !! table with
    | None => inr (<[table := df]> d)
    | Some old =>
        if String.eqb if_exists "fail"
        then inl (Exn ValueError ("Table '" +:+ table +:+ "' already exists."))
        else if String.eqb if_exists "replace"
        then inr (<[table := df]> d)
        else if decide (columns old = columns df)
        then inr (<[table := mkDataFrame (columns old) (rows old ++ rows df)]> d)
        else inl (Exn (LibraryError "ProgrammingError") "schema mismatch")
    end.

Section Ingest.

Context (W : World).

(** ** Library calls *)

(** [pd.read_csv(path, delimiter=.., encoding=..)] *)
Definition pd_read_csv (path delimiter encoding : string) : M DataFrame :=
  match w_read_csv W path delimiter encoding with
  | inl e => log (EvReadCsv path delimiter encoding (Some e));; raise e
  | inr df => log (EvReadCsv path delimiter encoding None);; mret df
  end.

(** [pyodbc.connect(connection_string)] *)
Definition pyodbc_connect (connection_string : string) : M Connection :=
  match w_pyodbc_connect W connection_string with
  | Some e => log (EvPyodbcConnect connection_string (Some e));; raise e
  | None =>
      log (EvPyodbcConnect connection_string None);;
      mret (mkConnection connection_string)
  end.

(** [create_engine(url)] *)
Definition create_engine (engine_url : string) : M Engine :=
  match w_create_engine W engine_url with
  | Some e => log (EvCreateEngine engine_url (Some e));; raise e
  | None => log (EvCreateEngine engine_url None);; mret (mkEngine engine_url)
  end.

(** [df.to_sql(table, engine, if_exists=.., index=False)]: a driver
    fault leaves the destination as the driver left it; otherwise the
    conflict policy decides. *)
Definition to_sql (df : DataFrame) (table : string) (engine : Engine)
    (if_exists : string) : M unit :=
  d ← get_db;
  match w_to_sql_fault W engine d table df if_exists with
  | Some (e, d') => log (EvToSql table if_exists (Some e));; put_db d';; raise e
  | None =>
      match to_sql_table d table df if_exists with
      | inl e => log (EvToSql table if_exists (Some e));; raise e
      | inr d' => log (EvToSql table if_exists None);; put_db d'
      end
  end.

(** [with engine.connect() as connection: body connection]: the
    connection is released when the block is left, however it is left. *)
Definition with_engine_connect {A : Type} (engine : Engine)
    (body : EngineConnection -> M A) : M A :=
  d ← get_db;
  match w_engine_connect W engine d with
  | Some e => log (EvEngineConnect (Some e));; raise e
  | None =>
      log (EvEngineConnect None);;
      try_finally (body (mkEngineConnection engine)) (log EvEngineConnectionClose)
  end.

(** [connection.execute(text(sql)).scalar()] *)
Definition execute_scalar (connection : EngineConnection) (sql : string) : M Z :=
  d ← get_db;
  match w_execute_scalar W (engine_of connection) d sql with
  | inl e => log (EvExecute sql (Some e));; raise e
  | inr n => log (EvExecute sql None);; mret n
  end.

(** [pd.read_sql(sql, engine).iloc[0]['row_count']] *)
Definition pd_read_sql (sql : string) (engine : Engine) : M Z :=
  d ← get_db;
  match w_read_sql_count W engine d sql with
  | inl e => log (EvReadSql sql (Some e));; raise e
  | inr n => log (EvReadSql sql None);; mret n
  end.

(** [conn.close()]; pyodbc refuses to close a connection twice, which
    no run attempts, and closing is otherwise taken not to raise. *)
Definition conn_close (c : Connection) : M unit := log EvConnClose.

(** ** [load_csv_to_sql_server] *)

(** Lines 31-37: the connection string, by authentication mode. *)
Definition build_connection_string (server database : string)
    (username password : py_str) (trusted_connection : bool) : M string :=
  if trusted_connection
  then
    mret ("DRIVER={ODBC Driver 17 for SQL Server};SERVER=" +:+ server
          +:+ ";DATABASE=" +:+ database +:+ ";Trusted_Connection=yes;")
  else
    (if negb (truthy username) || negb (truthy password)
     then raise (Exn ValueError
            "Username and password are required when not using trusted connection")
     else mret tt);;
    mret ("DRIVER={ODBC Driver 17 for SQL Server};SERVER=" +:+ server
          +:+ ";DATABASE=" +:+ database +:+ ";UID=" +:+ fmt username
          +:+ ";PWD=" +:+ fmt password).

(** Lines 52-68: the row count is asked through the engine, and asked
    again through pandas when the first query raises. *)
Definition verify (table_name : string) (engine : Engine) : M unit :=
  try_except
    (with_engine_connect engine (fun connection =>
       count ← execute_scalar connection
         ("SELECT COUNT(*) FROM [" +:+ table_name +:+ "]");
       print ("Verification: Table has " +:+ pretty count +:+ " rows")))
    (fun ve =>
       print ("Verification error: " +:+ str ve);;
       print "Trying alternative verification method...";;
       try_except
         (row_count ← pd_read_sql
            ("SELECT COUNT(*) AS row_count FROM [" +:+ table_name +:+ "]") engine;
          print ("Verification: Table has " +:+ pretty row_count +:+ " rows"))
         (fun ve2 =>
            print ("Alternative verification failed: " +:+ str ve2);;
            print "Data may have been inserted, but verification was not possible")).

Definition load_csv_to_sql_server (csv_path table_name server database : string)
    (username password : py_str) (trusted_connection : bool)
    (delimiter encoding if_exists : string) : M unit :=
  def (
    (if negb (w_isfile W csv_path)
     then raise (Exn FileNotFoundError ("CSV file not found: " +:+ csv_path))
     else mret tt);;
    print ("Reading data from " +:+ csv_path +:+ "...");;
    df ← try_except
      (df ← pd_read_csv csv_path delimiter encoding;
       (if empty df
        then print "WARNING: The CSV file has no data!";; return_
        else mret tt);;
       print ("CSV loaded: " +:+ pretty (len df) +:+ " rows and "
              +:+ pretty (length (columns df)) +:+ " columns");;
       print ("Column names: " +:+ String.concat ", " (columns df));;
       print ("First few rows: " +:+ nl +:+ w_head_repr W df);;
       mret df)
      (fun e => print ("Error reading CSV: " +:+ str e);; return_);
    connection_string ←
      build_connection_string server database username password trusted_connection;
    try_finally
      (try_except
         (print "Connecting to SQL Server...";;
          c ← pyodbc_connect connection_string;
          assign_conn c;;
          engine ← create_engine
            ("mssql+pyodbc:///?odbc_connect=" +:+ w_quote_plus W connection_string);
          print ("Loading data into " +:+ table_name +:+ " table...");;
          to_sql df table_name engine if_exists;;
          verify table_name engine;;
          print ("Successfully loaded " +:+ pretty (len df) +:+ " rows into " +:+ table_name))
         (fun e => print ("Error: " +:+ str e)))
      (c ← local_conn;
       match c with
       | Some c => conn_close c;; print "SQL Server connection closed"
       | None => mret tt
       end)).

(** ** The command line *)

(** [--if-exists]: argparse accepts these choices only. *)
Inductive if_exists_choice : Type := fail | replace | append.

Definition choice_str (c : if_exists_choice) : string :=
  match c with
  | fail => "fail"
  | replace => "replace"
  | append => "append"
  end.

(** The namespace returned by [parser.parse_args()]; an option that was
    not given and has no default is [None]. *)
Record Args : Type := mkArgs {
  csv_file : string;
  table_name : string;
  server : string;
  database : string;
  username : py_str;
  password : py_str;
  trusted_connection : bool;
  delimiter : string;
  if_exists : if_exists_choice
}.

(** [main], after argument parsing; [encoding] keeps its default. *)
Definition main (args : Args) : M unit :=
  def (
    load_csv_to_sql_server
      (csv_file args) (table_name args) (server args) (database args)
      (py_or (username args) "sa") (py_or (password args) "P@ssw0rd!")
      (trusted_connection args) (delimiter args) "utf-8"
      (choice_str (if_exists args))).


End Ingest.

(** ** Observations on a run *)

(** The exception an external call raised, if it raised. *)
Definition raised (ev : event) : option exn :=
  match ev with
  | EvReadCsv _ _ _ r => r
  | EvPyodbcConnect _ r => r
  | EvCreateEngine _ r => r
  | EvToSql _ _ r => r
  | EvEngineConnect r => r
  | EvExecute _ r => r
  | EvReadSql _ r => r
  | EvEngineConnectionClose => None
  | EvConnClose => None
  end.

(** All the exceptions the libraries raised during a run. *)
Definition errors (t : list event) : list exn := omap raised t.

(** The load step was reached and [to_sql] did not raise. *)
Definition load_succeeded (t : list event) : bool :=
  existsb (fun ev => match ev with EvToSql _ _ None => true | _ => false end) t.

(** A call that reaches out to the server or to its driver: every
    external call but the parsing of the local file. *)
Definition reaches_destination (ev : event) : bool :=
  match ev with
  | EvReadCsv _ _ _ _ => false
  | _ => true
  end.

Definition pyodbc_opened (ev : event) : bool :=
  match ev with EvPyodbcConnect _ None => true | _ => false end.

Definition pyodbc_closed (ev : event) : bool :=
  match ev with EvConnClose => true | _ => false end.

Definition engine_opened (ev : event) : bool :=
  match ev with EvEngineConnect None => true | _ => false end.

Definition engine_closed (ev : event) : bool :=
  match ev with EvEngineConnectionClose => true | _ => false end.

Definition count (f : event -> bool) (t : list event) : nat :=
  length (List.filter f t).

(** Database connections opened by the script itself: through pyodbc
    and through the engine. *)
Definition connections_opened (t : list event) : nat :=
  count pyodbc_opened t + count engine_opened t.

(** Replaying the opens and closes of one kind of connection over a
    trace, from [n] connections open: the number open at the end, or
    [None] when a close finds nothing to close. *)
Fixpoint open_after (opened closed : event -> bool) (n : nat) (t : list event)
    : option nat :=
  match t with
  | [] => Some n
  | ev :: t' =>
      if opened ev then open_after opened closed (S n) t'
      else if closed ev then
        match n with
        | 0 => None
        | S n' => open_after opened closed n' t'
        end
      else open_after opened closed n t'
  end.

(** A world with the three verification oracles replaced. *)
Definition set_verifier (W : World)
    (ec : Engine -> destination -> option exn)
    (ex rs : Engine -> destination -> string -> exn + Z) : World :=
  {| w_isfile := w_isfile W;
     w_read_csv := w_read_csv W;
     w_head_repr := w_head_repr W;
     w_pyodbc_connect := w_pyodbc_connect W;
     w_quote_plus := w_quote_plus W;
     w_create_engine := w_create_engine W;
     w_to_sql_fault := w_to_sql_fault W;
     w_engine_connect := ec;
     w_execute_scalar := ex;
     w_read_sql_count := rs |}.


Definition credentials_error : exn :=
  Exn ValueError "Username and password are required when not using trusted connection".


Definition success_line (df : DataFrame) (table_name : string) : string :=
  "Successfully loaded " +:+ pretty (len df) +:+ " rows into " +:+ table_name.

(** What the world must answer for a run on destination [d] to get
    through the load step: the file is there and parses to the
    non-empty [df], the connection string [cs] can be built, pyodbc and
    SQLAlchemy accept it, and [to_sql] turns [d] into [d']. *)
Definition load_conditions (W : World) (csv_path table_name server database : string)
    (username password : py_str) (trusted_connection : bool)
    (delimiter encoding if_exists : string) (d : destination)
    (df : DataFrame) (cs : string) (d' : destination) : Prop :=
  w_isfile W csv_path = true
  /\ w_read_csv W csv_path delimiter encoding = inr df
  /\ empty df = false
  /\ build_connection_string server database username password trusted_connection
       (initial d) = (Normal cs, initial d)
  /\ w_pyodbc_connect W cs = None
  /\ w_create_engine W ("mssql+pyodbc:///?odbc_connect=" +:+ w_quote_plus W cs) = None
  /\ w_to_sql_fault W (mkEngine ("mssql+pyodbc:///?odbc_connect=" +:+ w_quote_plus W cs))
       d table_name df if_exists = None
  /\ to_sql_table d table_name df if_exists = inr d'.

(** ** Concrete worlds *)

Definition customers_csv : DataFrame :=
  {| columns := ["id"; "name"];
     rows := [["1"; "Ann"]; ["2"; "Bob"]; ["3"; "Cy"]] |}.

Definition orders_csv : DataFrame :=
  {| columns := ["id"; "name"];
     rows := [["7"; "Dee"]; ["8"; "Eli"]] |}.

Definition header_only_csv : DataFrame :=
  {| columns := ["id"; "name"]; rows := [] |}.

(** The row count of a table of the destination, as a count query
    answers it. *)
Definition count_rows (d : destination) (table : string) : exn + Z :=
  match d !! table with
  | Some t => inr (Z.of_nat (len t))
  | None => inl (Exn (LibraryError "ProgrammingError") ("Invalid object name '" +:+ table +:+ "'."))
  end.

(** A reachable server; four files exist, one of which does not parse
    and one of which holds a header only. *)
Definition lab : World :=
  {| w_isfile := fun p =>
       String.eqb p "customers.csv" || String.eqb p "orders.csv"
       || String.eqb p "empty.csv" || String.eqb p "broken.csv";
     w_read_csv := fun p _ _ =>
       if String.eqb p "customers.csv" then inr customers_csv
       else if String.eqb p "orders.csv" then inr orders_csv
       else if String.eqb p "empty.csv" then inr header_only_csv
       else inl (Exn (LibraryError "ParserError") "Error tokenizing data");
     w_head_repr := fun df => String.concat " " (columns df);
     w_pyodbc_connect := fun _ => None;
     w_quote_plus := fun s => s;
     w_create_engine := fun _ => None;
     w_to_sql_fault := fun _ _ _ _ _ => None;
     w_engine_connect := fun _ _ => None;
     w_execute_scalar := fun _ d _ => count_rows d "customers";
     w_read_sql_count := fun _ d _ => count_rows d "customers" |}.

(** The same server, with both count queries failing. *)
Definition lab_no_count : World :=
  {| w_isfile := w_isfile lab;
     w_read_csv := w_read_csv lab;
     w_head_repr := w_head_repr lab;
     w_pyodbc_connect := w_pyodbc_connect lab;
     w_quote_plus := w_quote_plus lab;
     w_create_engine := w_create_engine lab;
     w_to_sql_fault := w_to_sql_fault lab;
     w_engine_connect := w_engine_connect lab;
     w_execute_scalar := fun _ _ _ => inl (Exn (LibraryError "OperationalError") "timeout");
     w_read_sql_count := fun _ _ _ => inl (Exn (LibraryError "DatabaseError") "timeout") |}.

(** The server cannot be reached. *)
Definition lab_offline : World :=
  {| w_isfile := w_isfile lab;
     w_read_csv := w_read_csv lab;
     w_head_repr := w_head_repr lab;
     w_pyodbc_connect := fun _ => Some (Exn (LibraryError "OperationalError") "login timeout expired");
     w_quote_plus := w_quote_plus lab;
     w_create_engine := w_create_engine lab;
     w_to_sql_fault := w_to_sql_fault lab;
     w_engine_connect := w_engine_connect lab;
     w_execute_scalar := w_execute_scalar lab;
     w_read_sql_count := w_read_sql_count lab |}.

(** A command line with the default server, database and delimiter. *)
Definition cli (file table : string) (u p : py_str) (trusted : bool)
    (policy : if_exists_choice) : Args :=
  {| csv_file := file; table_name := table; server := "127.0.0.1";
     database := "pythondemo"; username := u; password := p;
     trusted_connection := trusted; delimiter := ","; if_exists := policy |}.

(** A destination that already holds the table [customers]. *)
Definition stocked : destination := {[ "customers" := customers_csv ]}.

(** ** Further observations *)

Definition is_read_csv (ev : event) : bool :=
  match ev with EvReadCsv _ _ _ _ => true | _ => false end.

Definition is_pyodbc_connect (ev : event) : bool :=
  match ev with EvPyodbcConnect _ _ => true | _ => false end.

Definition is_create_engine (ev : event) : bool :=
  match ev with EvCreateEngine _ _ => true | _ => false end.

Definition is_to_sql (ev : event) : bool :=
  match ev with EvToSql _ _ _ => true | _ => false end.

Definition is_engine_connect (ev : event) : bool :=
  match ev with EvEngineConnect _ => true | _ => false end.

Definition is_execute (ev : event) : bool :=
  match ev with EvExecute _ _ => true | _ => false end.

Definition is_read_sql (ev : event) : bool :=
  match ev with EvReadSql _ _ => true | _ => false end.

(** A call of the verification, by either method. *)
Definition is_verification (ev : event) : bool :=
  is_engine_connect ev || is_execute ev || is_read_sql ev.

(** The first verification method raised: at [engine.connect()] or at
    the query. *)
Definition primary_failed (ev : event) : bool :=
  match ev with
  | EvEngineConnect (Some _) => true
  | EvExecute _ (Some _) => true
  | _ => false
  end.

(** The load step was reached and [to_sql] raised. *)
Definition load_failed (t : list event) : bool :=
  existsb (fun ev => match ev with EvToSql _ _ (Some _) => true | _ => false end) t.

Definition closing_line : string := "SQL Server connection closed".

(** [line.startswith(p)] *)
Fixpoint starts_with (p line : string) : bool :=
  match p with
  | EmptyString => true
  | String a p' =>
      match line with
      | EmptyString => false
      | String b line' => Ascii.eqb a b && starts_with p' line'
      end
  end.

(** A line that announces a successful load. *)
Definition is_success_line (line : string) : bool :=
  starts_with "Successfully loaded " line.

(** The event names the file, the table and the policy of the call,
    and asks for the row count of that table. *)
Definition addressed (csv_path delimiter encoding table_name if_exists : string)
    (ev : event) : Prop :=
  match ev with
  | EvReadCsv p dl en _ => p = csv_path /\ dl = delimiter /\ en = encoding
  | EvToSql t pol _ => t = table_name /\ pol = if_exists
  | EvExecute sql _ => sql = "SELECT COUNT(*) FROM [" +:+ table_name +:+ "]"
  | EvReadSql sql _ => sql = "SELECT COUNT(*) AS row_count FROM [" +:+ table_name +:+ "]"
  | _ => True
  end.

(** The event carries the connection string [cs]: as it is for
    pyodbc, quoted in the URL for the engine. *)
Definition from_connection_string (W : World) (cs : string) (ev : event) : Prop :=
  match ev with
  | EvPyodbcConnect c _ => c = cs
  | EvCreateEngine u _ => u = "mssql+pyodbc:///?odbc_connect=" +:+ w_quote_plus W cs
  | _ => True
  end.

(** The four lines that report a parsed, non-empty dataset. *)
Definition summary_lines (W : World) (csv_path : string) (df : DataFrame) : list string :=
  ["Reading data from " +:+ csv_path +:+ "...";
   "CSV loaded: " +:+ pretty (len df) +:+ " rows and "
     +:+ pretty (length (columns df)) +:+ " columns";
   "Column names: " +:+ String.concat ", " (columns df);
   "First few rows: " +:+ nl +:+ w_head_repr W df].

(** The server answers, SQLAlchemy does not. *)
Definition lab_no_engine : World :=
  {| w_isfile := w_isfile lab;
     w_read_csv := w_read_csv lab;
     w_head_repr := w_head_repr lab;
     w_pyodbc_connect := w_pyodbc_connect lab;
     w_quote_plus := w_quote_plus lab;
     w_create_engine := fun _ => Some (Exn (LibraryError "NoSuchModuleError") "no dialect");
     w_to_sql_fault := w_to_sql_fault lab;
     w_engine_connect := w_engine_connect lab;
     w_execute_scalar := w_execute_scalar lab;
     w_read_sql_count := w_read_sql_count lab |}.

(** The server drops the table it was given and then fails the insert. *)
Definition lab_load_fault : World :=
  {| w_isfile := w_isfile lab;
     w_read_csv := w_read_csv lab;
     w_head_repr := w_head_repr lab;
     w_pyodbc_connect := w_pyodbc_connect lab;
     w_quote_plus := w_quote_plus lab;
     w_create_engine := w_create_engine lab;
     w_to_sql_fault := fun _ d table _ _ =>
       Some (Exn (LibraryError "DataError") "string data, right truncation",
             delete table d);
     w_engine_connect := w_engine_connect lab;
     w_execute_scalar := w_execute_scalar lab;
     w_read_sql_count := w_read_sql_count lab |}.

(** The engine refuses the connection of the first verification
    method; the count through pandas answers. *)
Definition lab_no_engine_connection : World :=
  set_verifier lab
    (fun _ _ => Some (Exn (LibraryError "OperationalError") "pool exhausted"))
    (w_execute_scalar lab) (w_read_sql_count lab).

(** * Properties *)

Ltac unfold_run :=
  cbv [main load_csv_to_sql_server def verify build_connection_string
       pd_read_csv pyodbc_connect create_engine to_sql with_engine_connect
       execute_scalar pd_read_sql conn_close try_except try_finally raise
       return_ print log get_db put_db local_conn assign_conn mbind mret
       M_bind M_ret initial db stdout trace conn engine_of fst snd].

(** Names the result of a call and spells out, in the equation that
    defines it, the run up to the answers of the world. *)
Ltac name_run :=
  match goal with
  | |- context [load_csv_to_sql_server ?W ?a ?b ?c ?d ?e ?f ?g ?h ?i ?j ?s] =>
      let r := fresh "r" in
      let Hr := fresh "Hr" in
      remember (load_csv_to_sql_server W a b c d e f g h i j s) as r eqn:Hr;
      cbv [main load_csv_to_sql_server def verify build_connection_string
           pd_read_csv pyodbc_connect create_engine to_sql with_engine_connect
           execute_scalar pd_read_sql conn_close try_except try_finally raise
           return_ print log get_db put_db local_conn assign_conn mbind mret
           M_bind M_ret initial db stdout trace conn engine_of fst snd] in Hr;
      cbn [set_verifier w_isfile w_read_csv w_head_repr w_pyodbc_connect
           w_quote_plus w_create_engine w_to_sql_fault w_engine_connect
           w_execute_scalar w_read_sql_count] in Hr;
      cbv beta iota delta [negb orb andb truthy] in Hr;
      revert Hr
  end.

(** Case analysis on the next answer the run is waiting for, in the
    order in which the script asks. *)
Ltac answer :=
  match goal with
  | |- context [w_isfile ?W ?p] => destruct (w_isfile W p) eqn:?
  | |- context [w_read_csv ?W ?p ?d ?e] => destruct (w_read_csv W p d e) eqn:?
  | |- context [empty ?df] => destruct (empty df) eqn:?
  | |- context [match ?x with _ => _ end] => is_var x; destruct x
  | |- context [w_pyodbc_connect ?W ?p] => destruct (w_pyodbc_connect W p) eqn:?
  | |- context [w_create_engine ?W ?p] => destruct (w_create_engine W p) eqn:?
  | |- context [w_to_sql_fault ?W ?a ?b ?c ?d ?e] =>
      destruct (w_to_sql_fault W a b c d e) as [[? ?]|] eqn:?
  | |- context [to_sql_table ?b ?c ?d ?e] => destruct (to_sql_table b c d e) eqn:?
  | |- context [match ?x with _ => _ end] =>
      lazymatch x with
      | context [match _ with _ => _ end] => fail
      | _ => destruct x eqn:?
      end
  end; cbv beta iota.

Ltac paths := cbv beta zeta; repeat name_run; repeat answer; intros; subst.


(** ** The conflict policies *)

Lemma to_sql_table_replace (d : destination) (table : string) (df : DataFrame) :
  to_sql_table d table df "replace" = inr (<[table := df]> d).
Proof.
  unfold to_sql_table. cbn [String.eqb Ascii.eqb Bool.eqb orb negb].
  destruct (d !! table); reflexivity.
Qed.

(** ** How a call can end *)

Section Completion.

Context (W : World).
Context (csv_path table_name server database : string).
Context (username password : py_str) (trusted_connection : bool).
Context (delimiter encoding if_exists : string).



(** A run whose load step succeeded: what the world answered, and
    what the run left behind. *)
Lemma load_succeeded_inv (d : destination) :
  let r := load_csv_to_sql_server W csv_path table_name server database username
             password trusted_connection delimiter encoding if_exists (initial d) in
  load_succeeded (trace r.2) = true ->
  exists df cs d',
    load_conditions W csv_path table_name server database username password
      trusted_connection delimiter encoding if_exists d df cs d'
    /\ r.1 = Normal tt
    /\ db r.2 = d'
    /\ exists out,
         stdout r.2
         = (out ++ [success_line df table_name; "SQL Server connection closed"])%list.
Proof.
  paths;
    match goal with H : load_succeeded _ = true |- _ =>
      cbn [load_succeeded existsb app orb trace snd] in H; try discriminate H
    end;
    do 3 eexists; (split; [repeat split; try eassumption; reflexivity |]);
    (split; [reflexivity |]); (split; [reflexivity |]);
    eexists; cbn [stdout snd]; rewrite <- app_assoc; reflexivity.
Qed.

(** Conversely, those answers take the run through the load step. *)
Lemma load_succeeds (d : destination) (df : DataFrame) (cs : string) (d' : destination) :
  load_conditions W csv_path table_name server database username password
    trusted_connection delimiter encoding if_exists d df cs d' ->
  load_succeeded
    (trace (load_csv_to_sql_server W csv_path table_name server database username
              password trusted_connection delimiter encoding if_exists (initial d)).2)
  = true.
Proof.
  intros (Hfile & Hread & Hempty & Hcs & Hconn & Hengine & Hfault & Htable).
  cbv [build_connection_string mbind mret M_bind M_ret raise initial] in Hcs.
  cbv beta iota delta [negb orb andb truthy] in Hcs.
  paths; try congruence; try discriminate Hcs;
    injection Hcs as <-; try congruence; reflexivity.
Qed.

End Completion.

(** The verification oracles play no role in reaching the load step. *)
Lemma load_conditions_set_verifier (W : World)
    (ec : Engine -> destination -> option exn)
    (ex rs : Engine -> destination -> string -> exn + Z)
    (csv_path table_name server database : string) (username password : py_str)
    (trusted_connection : bool) (delimiter encoding if_exists : string)
    (d : destination) (df : DataFrame) (cs : string) (d' : destination) :
  load_conditions W csv_path table_name server database username password
    trusted_connection delimiter encoding if_exists d df cs d' ->
  load_conditions (set_verifier W ec ex rs) csv_path table_name server database
    username password trusted_connection delimiter encoding if_exists d df cs d'.
Proof. intros H. exact H. Qed.

(** The fallback credentials of [main] are never false. *)
Lemma py_or_truthy (x : py_str) (a : Ascii.ascii) (d : string) :
  truthy (py_or x (String a d)) = true.
Proof. destruct x as [[|b x]|]; reflexivity. Qed.


(** * The claims *)

Section Runs.

Context (W : World).
Context (csv_path table_name server database : string).
Context (delimiter encoding if_exists : string).


(** C2. When the path is not an existing regular file the call raises
    [FileNotFoundError] at once: the state it leaves is the state it
    found, so nothing was parsed, nothing printed, no connection
    attempted, and the destination is as it was; the connection
    parameters play no role, so no connection string was needed. *)
Theorem missing_file_aborts_untouched (username password : py_str)
    (trusted_connection : bool) (s : State) :
  w_isfile W csv_path = false ->
  load_csv_to_sql_server W csv_path table_name server database username password
    trusted_connection delimiter encoding if_exists s
  = (Raise (Exn FileNotFoundError ("CSV file not found: " +:+ csv_path)), s).
Proof.
  intros Hfile. unfold_run. rewrite Hfile. cbv beta iota delta [negb].
  destruct s; reflexivity.
Qed.

(** C3. A parsed dataset without data rows ends the run after the
    warning: the call returns normally, the only external call was the
    parsing of the file, the destination is unchanged, and the
    connection parameters play no role (absent credentials included),
    so no connection string was needed. *)
Theorem header_only_csv_is_not_loaded (username password : py_str)
    (trusted_connection : bool) (df : DataFrame) (s : State) :
  w_isfile W csv_path = true ->
  w_read_csv W csv_path delimiter encoding = inr df ->
  len df = 0 ->
  load_csv_to_sql_server W csv_path table_name server database username password
    trusted_connection delimiter encoding if_exists s
  = (Normal tt,
     {| db := db s;
        stdout := (stdout s ++ ["Reading data from " +:+ csv_path +:+ "..."])
                  ++ ["WARNING: The CSV file has no data!"];
        trace := trace s ++ [EvReadCsv csv_path delimiter encoding None];
        conn := conn s |}).
Proof.
  intros Hfile Hread Hrows.
  assert (Hempty : empty df = true).
  { unfold empty. unfold len in Hrows. rewrite Hrows. reflexivity. }
  unfold_run. rewrite Hfile, Hread. cbv beta iota delta [negb].
  rewrite Hempty. reflexivity.
Qed.

(** C4. In credential mode without a username or without a password
    the connection string cannot be built: the block raises
    [ValueError].  A run with such arguments makes no call that
    reaches the destination and leaves it as it was, and whenever the
    run gets to the connection string (the file is there and parses to
    a non-empty dataset) the call ends with that [ValueError]. *)
Theorem missing_credentials_raise_before_any_call (username password : py_str)
    (d : destination) :
  truthy username && truthy password = false ->
  let r := load_csv_to_sql_server W csv_path table_name server database username
             password false delimiter encoding if_exists (initial d) in
  (forall s, build_connection_string server database username password false s
             = (Raise credentials_error, s))
  /\ List.filter reaches_destination (trace r.2) = []
  /\ db r.2 = d
  /\ (forall df, w_isfile W csv_path = true ->
                 w_read_csv W csv_path delimiter encoding = inr df ->
                 empty df = false ->
                 r.1 = Raise credentials_error).
Proof.
  intros Hcred. split.
  { intros s. destruct username as [[|a u]|], password as [[|b p]|];
      first [discriminate Hcred | reflexivity]. }
  revert Hcred. paths;
    match goal with H : _ && _ = false |- _ => cbn in H; try discriminate H end;
    (split; [reflexivity | split; [reflexivity |]]);
    intros df' ? ? ?; first [congruence | reflexivity].
Qed.

(** C5 (as amended). The pyodbc connection is opened at most once and,
    when it was opened, closed exactly once before the call is over;
    the same holds of the connection the verification takes from the
    engine.  No close comes before its open. *)
Theorem each_connection_opened_once_closed_once (username password : py_str)
    (trusted_connection : bool) (d : destination) :
  let t := trace (load_csv_to_sql_server W csv_path table_name server database
                    username password trusted_connection delimiter encoding
                    if_exists (initial d)).2 in
  count pyodbc_opened t <= 1
  /\ count pyodbc_closed t = count pyodbc_opened t
  /\ open_after pyodbc_opened pyodbc_closed 0 t = Some 0
  /\ count engine_opened t <= 1
  /\ count engine_closed t = count engine_opened t
  /\ open_after engine_opened engine_closed 0 t = Some 0.
Proof.
  paths; cbn; repeat split; lia.
Qed.

(** C6. Once the load step has succeeded, the verification cannot
    change the outcome: with the verification oracles replaced by any
    others (raising or not), the run still gets through the load, ends
    normally, prints the success line, and leaves the destination
    exactly as [to_sql] wrote it. *)
Theorem verification_cannot_undo_load (username password : py_str)
    (trusted_connection : bool) (d : destination)
    (ec : Engine -> destination -> option exn)
    (ex rs : Engine -> destination -> string -> exn + Z) :
  let r := load_csv_to_sql_server W csv_path table_name server database
             username password trusted_connection delimiter encoding
             if_exists (initial d) in
  let r' := load_csv_to_sql_server (set_verifier W ec ex rs) csv_path table_name
              server database username password trusted_connection delimiter
              encoding if_exists (initial d) in
  load_succeeded (trace r.2) = true ->
  load_succeeded (trace r'.2) = true
  /\ r'.1 = Normal tt
  /\ db r'.2 = db r.2
  /\ exists df,
       w_read_csv W csv_path delimiter encoding = inr df
       /\ In (success_line df table_name) (stdout r'.2)
       /\ to_sql_table d table_name df if_exists = inr (db r'.2).
Proof.
  cbv zeta. intros Hload.
  apply load_succeeded_inv in Hload as (df & cs & d' & Hcond & _ & Hdb & _).
  pose proof (load_succeeds _ _ _ _ _ _ _ _ _ _ _ _ _ _ _
                (load_conditions_set_verifier W ec ex rs _ _ _ _ _ _ _ _ _ _ _ _ _ _ Hcond))
    as Hload'.
  split; [exact Hload' |].
  apply load_succeeded_inv in Hload' as (df' & cs' & d'' & Hcond' & Hend & Hdb' & out & Hout).
  destruct Hcond as (_ & Hread & _ & _ & _ & _ & _ & Htable).
  destruct Hcond' as (_ & Hread' & _ & _ & _ & _ & _ & Htable').
  cbn [set_verifier w_read_csv] in Hread'.
  assert (df' = df) as -> by congruence.
  assert (d'' = d') as -> by congruence.
  split; [exact Hend |]. split; [congruence |].
  exists df. split; [exact Hread |]. split.
  - rewrite Hout. apply in_or_app. right. left. reflexivity.
  - rewrite Hdb'. exact Htable.
Qed.

(** C8. With a trusted connection the connection string is built from
    the server and the database alone, without any check of the
    credentials, and a whole run does not depend on the username or
    the password it was given. *)
Theorem trusted_mode_ignores_credentials (u p u' p' : py_str) (s : State) :
  build_connection_string server database u p true
  = mret ("DRIVER={ODBC Driver 17 for SQL Server};SERVER=" +:+ server
          +:+ ";DATABASE=" +:+ database +:+ ";Trusted_Connection=yes;")
  /\ build_connection_string server database u p true
     = build_connection_string server database u' p' true
  /\ load_csv_to_sql_server W csv_path table_name server database u p
       true delimiter encoding if_exists s
     = load_csv_to_sql_server W csv_path table_name server database u' p'
       true delimiter encoding if_exists s.
Proof.
  split; [reflexivity | split; reflexivity].
Qed.

(** C10. On the success path the run ends with the success line and
    the closing line, and the number in the success line is the row
    count of the dataset parsed from the file, whatever the
    verification queries answered. *)
Theorem success_line_reports_source_rows (username password : py_str)
    (trusted_connection : bool) (d : destination) (df : DataFrame) :
  let r := load_csv_to_sql_server W csv_path table_name server database
             username password trusted_connection delimiter encoding
             if_exists (initial d) in
  w_read_csv W csv_path delimiter encoding = inr df ->
  load_succeeded (trace r.2) = true ->
  r.1 = Normal tt
  /\ exists out,
       stdout r.2
       = (out ++ ["Successfully loaded " +:+ pretty (length (rows df))
                    +:+ " rows into " +:+ table_name;
                  "SQL Server connection closed"])%list.
Proof.
  cbv zeta. intros Hread Hload.
  apply load_succeeded_inv in Hload as (df' & cs & d' & Hcond & Hend & _ & out & Hout).
  destruct Hcond as (_ & Hread' & _).
  assert (df' = df) as -> by congruence.
  split; [exact Hend |]. exists out. exact Hout.
Qed.

End Runs.

(** C7. Under the policy [replace], when dataset A and then dataset B
    are loaded into the same table, the table holds exactly dataset B
    after the second load, whatever it held before, and the other
    tables are as they were before the two loads. *)
Theorem replace_leaves_exactly_second_dataset (W1 W2 : World)
    (csv_a csv_b table_name server database : string)
    (username password : py_str) (trusted_connection : bool)
    (delimiter encoding : string) (d : destination) (dfA dfB : DataFrame) :
  let r1 := load_csv_to_sql_server W1 csv_a table_name server database username
              password trusted_connection delimiter encoding "replace" (initial d) in
  let r2 := load_csv_to_sql_server W2 csv_b table_name server database username
              password trusted_connection delimiter encoding "replace"
              (initial (db r1.2)) in
  w_read_csv W1 csv_a delimiter encoding = inr dfA ->
  w_read_csv W2 csv_b delimiter encoding = inr dfB ->
  load_succeeded (trace r1.2) = true ->
  load_succeeded (trace r2.2) = true ->
  db r1.2 !! table_name = Some dfA
  /\ db r2.2 !! table_name = Some dfB
  /\ (forall other, other <> table_name -> db r2.2 !! other = d !! other).
Proof.
  cbv zeta. intros HreadA HreadB HloadA HloadB.
  apply load_succeeded_inv in HloadA as (dfA' & csA & dA & HcondA & _ & HdbA & _).
  apply load_succeeded_inv in HloadB as (dfB' & csB & dB & HcondB & _ & HdbB & _).
  destruct HcondA as (_ & HreadA' & _ & _ & _ & _ & _ & HtableA).
  destruct HcondB as (_ & HreadB' & _ & _ & _ & _ & _ & HtableB).
  assert (dfA' = dfA) as -> by congruence.
  assert (dfB' = dfB) as -> by congruence.
  rewrite to_sql_table_replace in HtableA, HtableB.
  injection HtableA as <-. injection HtableB as <-.
  rewrite HdbB, HdbA.
  split; [apply lookup_insert_eq |].
  split; [apply lookup_insert_eq |].
  intros other Hother. rewrite !lookup_insert_ne by congruence. reflexivity.
Qed.


(** ** The claims on concrete runs *)



Lemma missing_file_aborts_untouched_witness :
  w_isfile lab "nope.csv" = false
  /\ load_csv_to_sql_server lab "nope.csv" "customers" "127.0.0.1" "pythondemo"
       (Some "sa") (Some "pw") false "," "utf-8" "replace" (initial stocked)
     = (Raise (Exn FileNotFoundError "CSV file not found: nope.csv"), initial stocked).
Proof.
  split; [reflexivity |].
  apply (missing_file_aborts_untouched lab "nope.csv" "customers" "127.0.0.1"
           "pythondemo" "," "utf-8" "replace" (Some "sa") (Some "pw") false
           (initial stocked)).
  reflexivity.
Defined.

Lemma header_only_csv_is_not_loaded_witness :
  (w_isfile lab "empty.csv" = true
   /\ w_read_csv lab "empty.csv" "," "utf-8" = inr header_only_csv
   /\ len header_only_csv = 0)
  /\ load_csv_to_sql_server lab "empty.csv" "customers" "127.0.0.1" "pythondemo"
       None None false "," "utf-8" "replace" (initial stocked)
     = (Normal tt,
        {| db := stocked;
           stdout := ["Reading data from empty.csv...";
                      "WARNING: The CSV file has no data!"];
           trace := [EvReadCsv "empty.csv" "," "utf-8" None];
           conn := None |}).
Proof.
  split; [repeat split; reflexivity |].
  apply (header_only_csv_is_not_loaded lab "empty.csv" "customers" "127.0.0.1"
           "pythondemo" "," "utf-8" "replace" None None false header_only_csv
           (initial stocked)); reflexivity.
Defined.

Lemma missing_credentials_raise_before_any_call_witness :
  truthy (Some "sa") && truthy None = false
  /\ (load_csv_to_sql_server lab "customers.csv" "customers" "127.0.0.1" "pythondemo"
        (Some "sa") None false "," "utf-8" "replace" (initial ∅)).1
     = Raise credentials_error.
Proof.
  split; [reflexivity |].
  apply (proj2 (proj2 (proj2
           (missing_credentials_raise_before_any_call lab "customers.csv" "customers"
              "127.0.0.1" "pythondemo" "," "utf-8" "replace" (Some "sa") None ∅
              eq_refl))) customers_csv); reflexivity.
Defined.

(** C5 as stated fails: a successful run opens the pyodbc connection
    and, for the verification, a connection of the engine. *)
Lemma successful_run_opens_two_connections :
  connections_opened
    (trace (main lab (cli "customers.csv" "customers" None None false replace)
              (initial ∅)).2) = 2
  /\ ~ connections_opened
         (trace (main lab (cli "customers.csv" "customers" None None false replace)
                   (initial ∅)).2) <= 1.
Proof.
  assert (H : connections_opened
                (trace (main lab (cli "customers.csv" "customers" None None false replace)
                          (initial ∅)).2) = 2) by reflexivity.
  split; [exact H | rewrite H; lia].
Qed.

Lemma verification_cannot_undo_load_witness :
  load_succeeded
    (trace (load_csv_to_sql_server lab "customers.csv" "customers" "127.0.0.1"
              "pythondemo" (Some "sa") (Some "pw") false "," "utf-8" "replace"
              (initial ∅)).2) = true
  /\ (load_csv_to_sql_server
        (set_verifier lab (w_engine_connect lab_no_count)
           (w_execute_scalar lab_no_count) (w_read_sql_count lab_no_count))
        "customers.csv" "customers" "127.0.0.1" "pythondemo" (Some "sa") (Some "pw")
        false "," "utf-8" "replace" (initial ∅)).1 = Normal tt.
Proof.
  split; [reflexivity |].
  apply (verification_cannot_undo_load lab "customers.csv" "customers" "127.0.0.1"
           "pythondemo" "," "utf-8" "replace" (Some "sa") (Some "pw") false ∅
           (w_engine_connect lab_no_count) (w_execute_scalar lab_no_count)
           (w_read_sql_count lab_no_count)).
  reflexivity.
Defined.

Lemma replace_leaves_exactly_second_dataset_witness :
  (w_read_csv lab "customers.csv" "," "utf-8" = inr customers_csv
   /\ w_read_csv lab "orders.csv" "," "utf-8" = inr orders_csv)
  /\ db (load_csv_to_sql_server lab "orders.csv" "customers" "127.0.0.1" "pythondemo"
        (Some "sa") (Some "pw") false "," "utf-8" "replace"
        (initial
           (db (load_csv_to_sql_server lab "customers.csv" "customers" "127.0.0.1"
                  "pythondemo" (Some "sa") (Some "pw") false "," "utf-8" "replace"
                  (initial ∅)).2))).2
  !! "customers" = Some orders_csv.
Proof.
  split; [split; reflexivity |].
  apply (replace_leaves_exactly_second_dataset lab lab "customers.csv" "orders.csv"
           "customers" "127.0.0.1" "pythondemo" (Some "sa") (Some "pw") false ","
           "utf-8" ∅ customers_csv orders_csv); reflexivity.
Defined.


(** C10 where the verification counts five rows in the table: two
    rows were appended to three, and the success line says two. *)
Lemma success_line_reports_source_rows_witness :
  (w_read_csv lab "orders.csv" "," "utf-8" = inr orders_csv
   /\ In "Verification: Table has 5 rows"
        (stdout (load_csv_to_sql_server lab "orders.csv" "customers" "127.0.0.1"
                   "pythondemo" (Some "sa") (Some "pw") false "," "utf-8" "append"
                   (initial stocked)).2))
  /\ exists out,
       stdout (load_csv_to_sql_server lab "orders.csv" "customers" "127.0.0.1"
                 "pythondemo" (Some "sa") (Some "pw") false "," "utf-8" "append"
                 (initial stocked)).2
       = (out ++ ["Successfully loaded 2 rows into customers";
                  "SQL Server connection closed"])%list.
Proof.
  split; [split; [reflexivity | vm_compute; tauto] |].
  apply (success_line_reports_source_rows lab "orders.csv" "customers" "127.0.0.1"
           "pythondemo" "," "utf-8" "append" (Some "sa") (Some "pw") false stocked
           orders_csv); reflexivity.
Defined.

(** The same success line when neither count query answers. *)
Example success_line_without_verification :
  stdout (main lab_no_count (cli "customers.csv" "customers" None None false replace)
            (initial ∅)).2
  = ["Reading data from customers.csv...";
     "CSV loaded: 3 rows and 2 columns";
     "Column names: id, name";
     "First few rows: " +:+ nl +:+ "id name";
     "Connecting to SQL Server...";
     "Loading data into customers table...";
     "Verification error: timeout";
     "Trying alternative verification method...";
     "Alternative verification failed: timeout";
     "Data may have been inserted, but verification was not possible";
     "Successfully loaded 3 rows into customers";
     "SQL Server connection closed"].
Proof. reflexivity. Qed.

(** An unreachable server: the error is printed, nothing was opened,
    nothing is closed, and the call returns normally. *)
Example offline_run :
  main lab_offline (cli "customers.csv" "customers" None None false replace) (initial stocked)
  = (Normal tt,
     {| db := stocked;
        stdout := ["Reading data from customers.csv...";
                   "CSV loaded: 3 rows and 2 columns";
                   "Column names: id, name";
                   "First few rows: " +:+ nl +:+ "id name";
                   "Connecting to SQL Server...";
                   "Error: login timeout expired"];
        trace := [EvReadCsv "customers.csv" "," "utf-8" None;
                  EvPyodbcConnect
                    "DRIVER={ODBC Driver 17 for SQL Server};SERVER=127.0.0.1;DATABASE=pythondemo;UID=sa;PWD=P@ssw0rd!"
                    (Some (Exn (LibraryError "OperationalError") "login timeout expired"))];
        conn := None |}).
Proof. reflexivity. Qed.

(** * Further properties of the script *)

(** Two answers to one question are one answer. *)
Ltac same_answers :=
  cbn [fmt] in *;
  repeat match goal with
         | H : ?x = _, H' : ?x = _ |- _ => rewrite H in H'
         end;
  simplify_eq.

(** Calling a function from a function body that does nothing else is
    calling it. *)
Lemma def_idempotent (body : M unit) (s : State) : def (def body) s = def body s.
Proof.
  unfold def. cbn [db stdout trace conn].
  destruct (body _) as [[[] | | e] s']; reflexivity.
Qed.

Lemma main_run (W : World) (args : Args) (s : State) :
  main W args s
  = load_csv_to_sql_server W (csv_file args) (table_name args) (server args)
      (database args) (py_or (username args) "sa")
      (py_or (password args) "P@ssw0rd!") (trusted_connection args)
      (delimiter args) "utf-8" (choice_str (if_exists args)) s.
Proof. unfold main, load_csv_to_sql_server. apply def_idempotent. Qed.

Section MoreRuns.

Context (W : World).
Context (csv_path table_name server database : string).
Context (username password : py_str) (trusted_connection : bool).
Context (delimiter encoding if_exists : string).

(** X1. When the file exists and [read_csv] raises, the run prints
    the reading line and the error behind "Error reading CSV: ",
    returns normally, has made no other external call, and leaves the
    destination and the caller's state as they were, whatever the
    connection parameters. *)
Theorem parse_error_ends_run (e : exn) (s : State) :
  w_isfile W csv_path = true ->
  w_read_csv W csv_path delimiter encoding = inl e ->
  load_csv_to_sql_server W csv_path table_name server database username password
    trusted_connection delimiter encoding if_exists s
  = (Normal tt,
     {| db := db s;
        stdout := (stdout s ++ ["Reading data from " +:+ csv_path +:+ "..."])
                  ++ ["Error reading CSV: " +:+ str e];
        trace := trace s ++ [EvReadCsv csv_path delimiter encoding (Some e)];
        conn := conn s |}).
Proof.
  intros Hfile Hread.
  unfold_run. rewrite Hfile, Hread. reflexivity.
Qed.


(** X3. When [pyodbc.connect] raises, the error is printed behind
    "Error: ", the call returns normally, no engine is created, the
    destination is untouched, and, [conn] never having been bound,
    nothing is closed and no closing line is printed. *)
Theorem connect_failure_closes_nothing (d : destination) (df : DataFrame)
    (cs : string) (e : exn) :
  w_isfile W csv_path = true ->
  w_read_csv W csv_path delimiter encoding = inr df ->
  empty df = false ->
  build_connection_string server database username password trusted_connection
    (initial d) = (Normal cs, initial d) ->
  w_pyodbc_connect W cs = Some e ->
  load_csv_to_sql_server W csv_path table_name server database username password
    trusted_connection delimiter encoding if_exists (initial d)
  = (Normal tt,
     {| db := d;
        stdout := summary_lines W csv_path df
                  ++ ["Connecting to SQL Server..."; "Error: " +:+ str e];
        trace := [EvReadCsv csv_path delimiter encoding None;
                  EvPyodbcConnect cs (Some e)];
        conn := None |}).
Proof.
  intros Hfile Hread Hempty Hcs Hconn.
  cbv [build_connection_string mbind mret M_bind M_ret raise initial] in Hcs.
  cbv beta iota delta [negb orb andb truthy] in Hcs.
  paths; try congruence; try discriminate Hcs;
    injection Hcs as <-; try congruence; same_answers; reflexivity.
Qed.

(** X4. When [create_engine] raises after the pyodbc connection
    was opened, the error is printed, the connection is closed all the
    same and the closing line printed, [to_sql] is not called and the
    destination is untouched. *)
Theorem engine_failure_closes_connection (d : destination) (df : DataFrame)
    (cs : string) (e : exn) :
  w_isfile W csv_path = true ->
  w_read_csv W csv_path delimiter encoding = inr df ->
  empty df = false ->
  build_connection_string server database username password trusted_connection
    (initial d) = (Normal cs, initial d) ->
  w_pyodbc_connect W cs = None ->
  w_create_engine W ("mssql+pyodbc:///?odbc_connect=" +:+ w_quote_plus W cs) = Some e ->
  load_csv_to_sql_server W csv_path table_name server database username password
    trusted_connection delimiter encoding if_exists (initial d)
  = (Normal tt,
     {| db := d;
        stdout := summary_lines W csv_path df
                  ++ ["Connecting to SQL Server..."; "Error: " +:+ str e; closing_line];
        trace := [EvReadCsv csv_path delimiter encoding None;
                  EvPyodbcConnect cs None;
                  EvCreateEngine
                    ("mssql+pyodbc:///?odbc_connect=" +:+ w_quote_plus W cs) (Some e);
                  EvConnClose];
        conn := None |}).
Proof.
  intros Hfile Hread Hempty Hcs Hconn Hengine.
  cbv [build_connection_string mbind mret M_bind M_ret raise initial] in Hcs.
  cbv beta iota delta [negb orb andb truthy] in Hcs.
  paths; try congruence; try discriminate Hcs;
    injection Hcs as <-; try congruence; same_answers; reflexivity.
Qed.

(** X5. When [to_sql] raises, the call still returns normally:
    no verification is attempted, no success line is printed, the
    error is printed behind "Error: " as the last line but the closing
    line, and closing the connection is the last external call. *)
Theorem load_failure_is_reported_and_released (d : destination) :
  let r := load_csv_to_sql_server W csv_path table_name server database username
             password trusted_connection delimiter encoding if_exists (initial d) in
  load_failed (trace r.2) = true ->
  r.1 = Normal tt
  /\ existsb is_verification (trace r.2) = false
  /\ existsb is_success_line (stdout r.2) = false
  /\ (exists e out,
        In e (errors (trace r.2))
        /\ stdout r.2 = (out ++ ["Error: " +:+ str e; closing_line])%list)
  /\ exists t, trace r.2 = (t ++ [EvConnClose])%list.
Proof.
  paths;
    match goal with H : load_failed _ = true |- _ =>
      cbn [load_failed existsb app orb trace snd] in H; try discriminate H
    end;
    (split; [reflexivity |]); (split; [reflexivity |]); (split; [reflexivity |]);
    (split;
     [ do 2 eexists; split;
       [ cbn [errors omap list_omap app raised trace snd]; left; reflexivity
       | cbn [stdout snd]; rewrite <- app_assoc; reflexivity ]
     | eexists; reflexivity ]).
Qed.

(** X6. A run prints a line beginning with "Successfully loaded "
    exactly when it reached [to_sql] and [to_sql] did not raise. *)
Theorem success_line_iff_load_succeeded (d : destination) :
  let r := load_csv_to_sql_server W csv_path table_name server database username
             password trusted_connection delimiter encoding if_exists (initial d) in
  existsb is_success_line (stdout r.2) = load_succeeded (trace r.2).
Proof.
  paths; reflexivity.
Qed.

(** X7. The closing line is printed exactly when the pyodbc
    connection was opened; it is then the last line of the output, and
    closing the connection is the last external call of the run. *)
Theorem closing_line_iff_connection_opened (d : destination) :
  let r := load_csv_to_sql_server W csv_path table_name server database username
             password trusted_connection delimiter encoding if_exists (initial d) in
  existsb (String.eqb closing_line) (stdout r.2) = existsb pyodbc_opened (trace r.2)
  /\ (existsb pyodbc_opened (trace r.2) = true ->
      (exists out, stdout r.2 = (out ++ [closing_line])%list)
      /\ exists t, trace r.2 = (t ++ [EvConnClose])%list).
Proof.
  paths; (split; [reflexivity |]);
    intros Hopen;
    cbn [existsb app orb trace snd pyodbc_opened] in Hopen;
    try discriminate Hopen;
    split; eexists; reflexivity.
Qed.

(** X8. A run that does not call [to_sql] leaves the destination
    as it found it. *)
Theorem destination_changes_only_through_to_sql (d : destination) :
  let r := load_csv_to_sql_server W csv_path table_name server database username
             password trusted_connection delimiter encoding if_exists (initial d) in
  existsb is_to_sql (trace r.2) = false ->
  db r.2 = d.
Proof.
  paths;
    match goal with H : existsb _ _ = false |- _ =>
      cbn [existsb app orb trace snd is_to_sql] in H; try discriminate H
    end;
    reflexivity.
Qed.

(** X9. The count through [pd.read_sql] is asked for exactly when
    the first verification method raised, at [engine.connect()] or at
    the query. *)
Theorem fallback_runs_iff_primary_failed (d : destination) :
  let r := load_csv_to_sql_server W csv_path table_name server database username
             password trusted_connection delimiter encoding if_exists (initial d) in
  existsb is_read_sql (trace r.2) = existsb primary_failed (trace r.2).
Proof.
  paths; reflexivity.
Qed.

(** X10. No external call is retried: the file is parsed once when
    it exists and not at all otherwise, and each of [pyodbc.connect],
    [create_engine], [to_sql], [engine.connect()], the count query and
    [pd.read_sql] is called at most once. *)
Theorem no_call_is_repeated (d : destination) :
  let t := trace (load_csv_to_sql_server W csv_path table_name server database
                    username password trusted_connection delimiter encoding
                    if_exists (initial d)).2 in
  count is_read_csv t = (if w_isfile W csv_path then 1 else 0)
  /\ count is_pyodbc_connect t <= 1
  /\ count is_create_engine t <= 1
  /\ count is_to_sql t <= 1
  /\ count is_engine_connect t <= 1
  /\ count is_execute t <= 1
  /\ count is_read_sql t <= 1.
Proof.
  paths; cbn; repeat split; lia.
Qed.

(** X11. Every external call of a run is about the arguments of
    the call: the file is read under the given path, delimiter and
    encoding, [to_sql] gets the given table name and policy, and both
    count queries count the rows of that table. *)
Theorem calls_name_the_given_file_and_table (d : destination) :
  Forall (addressed csv_path delimiter encoding table_name if_exists)
    (trace (load_csv_to_sql_server W csv_path table_name server database username
              password trusted_connection delimiter encoding if_exists (initial d)).2).
Proof.
  paths; cbn [trace snd app]; repeat constructor.
Qed.

(** X12. pyodbc and the engine are given the same connection
    string, the one built from the arguments: as it is for
    [pyodbc.connect], URL-quoted behind the [mssql+pyodbc] prefix for
    [create_engine]. *)
Theorem both_connections_use_one_connection_string (d : destination) (cs : string) :
  build_connection_string server database username password trusted_connection
    (initial d) = (Normal cs, initial d) ->
  Forall (from_connection_string W cs)
    (trace (load_csv_to_sql_server W csv_path table_name server database username
              password trusted_connection delimiter encoding if_exists (initial d)).2).
Proof.
  intros Hcs.
  cbv [build_connection_string mbind mret M_bind M_ret raise initial] in Hcs.
  cbv beta iota delta [negb orb andb truthy] in Hcs.
  paths; try discriminate Hcs; try injection Hcs as <-;
    cbn [trace snd app]; repeat constructor.
Qed.

End MoreRuns.

(** X13. The verification block, from any state and with any
    engine, ends normally, prints at least one line, writes neither
    the destination nor [conn], and has closed the engine connection
    it opened, if it opened one. *)
Theorem verification_never_raises (W : World) (table_name : string)
    (engine : Engine) (s : State) :
  let r := verify W table_name engine s in
  r.1 = Normal tt
  /\ db r.2 = db s
  /\ conn r.2 = conn s
  /\ exists out evs,
       out <> []
       /\ stdout r.2 = (stdout s ++ out)%list
       /\ trace r.2 = (trace s ++ evs)%list
       /\ open_after engine_opened engine_closed 0 evs = Some 0.
Proof.
  cbv zeta.
  cbv [verify with_engine_connect execute_scalar pd_read_sql try_except try_finally
       raise print log get_db mbind mret M_bind M_ret db stdout trace conn
       engine_of fst snd].
  repeat answer;
    (split; [reflexivity |]); (split; [reflexivity |]); (split; [reflexivity |]);
    do 2 eexists;
    (split;
     [| split;
        [ rewrite <- ?app_assoc; reflexivity
        | split; [rewrite <- ?app_assoc; reflexivity | reflexivity] ] ]);
    cbn [app]; discriminate.
Qed.

(** X14. A run of [main] reads the file named on the command line
    with the delimiter given there and as UTF-8, writes and counts the
    table named there, and passes [to_sql] one of the three policy
    names. *)
Theorem main_passes_arguments_through (W : World) (args : Args) (d : destination) :
  Forall (addressed (csv_file args) (delimiter args) "utf-8" (table_name args)
            (choice_str (if_exists args)))
    (trace (main W args (initial d)).2)
  /\ In (choice_str (if_exists args)) ["fail"; "replace"; "append"].
Proof.
  split.
  - rewrite main_run. paths; cbn [trace snd app]; repeat constructor.
  - destruct (if_exists args); cbn; tauto.
Qed.

(** X15. Without [--trusted-connection], [main] connects with the
    username and password of the command line where they are given
    and non-empty and with the fallback [sa] and [P@ssw0rd!] where they
    are not. *)
Theorem cli_credentials_reach_the_driver (W : World) (args : Args) (d : destination) :
  trusted_connection args = false ->
  Forall (from_connection_string W
            ("DRIVER={ODBC Driver 17 for SQL Server};SERVER=" +:+ server args
             +:+ ";DATABASE=" +:+ database args
             +:+ ";UID=" +:+ fmt (py_or (username args) "sa")
             +:+ ";PWD=" +:+ fmt (py_or (password args) "P@ssw0rd!")))
    (trace (main W args (initial d)).2).
Proof.
  intros Htrusted. rewrite main_run, Htrusted.
  assert (Hu : truthy (py_or (username args) "sa") = true) by apply py_or_truthy.
  assert (Hp : truthy (py_or (password args) "P@ssw0rd!") = true) by apply py_or_truthy.
  destruct (py_or (username args) "sa") as [[| a u] |]; try discriminate Hu.
  destruct (py_or (password args) "P@ssw0rd!") as [[| b p] |]; try discriminate Hp.
  paths; cbn [trace snd app]; repeat constructor.
Qed.

(** X16. With [--trusted-connection], a run of [main] is the same
    whatever [--username] and [--password] are. *)
Theorem cli_trusted_mode_ignores_credentials (W : World)
    (file table srv dbn dl : string) (u p u' p' : py_str)
    (policy : if_exists_choice) (s : State) :
  main W (mkArgs file table srv dbn u p true dl policy) s
  = main W (mkArgs file table srv dbn u' p' true dl policy) s.
Proof. rewrite !main_run. reflexivity. Qed.

(** ** Further properties on concrete runs *)

Lemma parse_error_ends_run_witness :
  (w_isfile lab "broken.csv" = true
   /\ w_read_csv lab "broken.csv" "," "utf-8"
      = inl (Exn (LibraryError "ParserError") "Error tokenizing data"))
  /\ load_csv_to_sql_server lab "broken.csv" "customers" "127.0.0.1" "pythondemo"
       None None false "," "utf-8" "replace" (initial stocked)
     = (Normal tt,
        {| db := stocked;
           stdout := ["Reading data from broken.csv...";
                      "Error reading CSV: Error tokenizing data"];
           trace := [EvReadCsv "broken.csv" "," "utf-8"
                       (Some (Exn (LibraryError "ParserError") "Error tokenizing data"))];
           conn := None |}).
Proof.
  split; [split; reflexivity |].
  apply (parse_error_ends_run lab "broken.csv" "customers" "127.0.0.1" "pythondemo"
           None None false "," "utf-8" "replace"
           (Exn (LibraryError "ParserError") "Error tokenizing data")
           (initial stocked)); reflexivity.
Defined.

Lemma connect_failure_closes_nothing_witness :
  w_pyodbc_connect lab_offline
    "DRIVER={ODBC Driver 17 for SQL Server};SERVER=db1;DATABASE=shop;Trusted_Connection=yes;"
  = Some (Exn (LibraryError "OperationalError") "login timeout expired")
  /\ stdout (load_csv_to_sql_server lab_offline "customers.csv" "customers" "db1" "shop"
               None None true "," "utf-8" "replace" (initial stocked)).2
     = ["Reading data from customers.csv...";
        "CSV loaded: 3 rows and 2 columns";
        "Column names: id, name";
        "First few rows: " +:+ nl +:+ "id name";
        "Connecting to SQL Server...";
        "Error: login timeout expired"].
Proof.
  split; [reflexivity |].
  rewrite (connect_failure_closes_nothing lab_offline "customers.csv" "customers" "db1"
             "shop" None None true "," "utf-8" "replace" stocked customers_csv
             "DRIVER={ODBC Driver 17 for SQL Server};SERVER=db1;DATABASE=shop;Trusted_Connection=yes;"
             (Exn (LibraryError "OperationalError") "login timeout expired")
             eq_refl eq_refl eq_refl eq_refl eq_refl).
  reflexivity.
Defined.

Lemma engine_failure_closes_connection_witness :
  w_create_engine lab_no_engine
    ("mssql+pyodbc:///?odbc_connect="
     +:+ "DRIVER={ODBC Driver 17 for SQL Server};SERVER=db1;DATABASE=shop;Trusted_Connection=yes;")
  = Some (Exn (LibraryError "NoSuchModuleError") "no dialect")
  /\ trace (load_csv_to_sql_server lab_no_engine "customers.csv" "customers" "db1" "shop"
              None None true "," "utf-8" "replace" (initial stocked)).2
     = [EvReadCsv "customers.csv" "," "utf-8" None;
        EvPyodbcConnect
          "DRIVER={ODBC Driver 17 for SQL Server};SERVER=db1;DATABASE=shop;Trusted_Connection=yes;"
          None;
        EvCreateEngine
          "mssql+pyodbc:///?odbc_connect=DRIVER={ODBC Driver 17 for SQL Server};SERVER=db1;DATABASE=shop;Trusted_Connection=yes;"
          (Some (Exn (LibraryError "NoSuchModuleError") "no dialect"));
        EvConnClose].
Proof.
  split; [reflexivity |].
  rewrite (engine_failure_closes_connection lab_no_engine "customers.csv" "customers"
             "db1" "shop" None None true "," "utf-8" "replace" stocked customers_csv
             "DRIVER={ODBC Driver 17 for SQL Server};SERVER=db1;DATABASE=shop;Trusted_Connection=yes;"
             (Exn (LibraryError "NoSuchModuleError") "no dialect")
             eq_refl eq_refl eq_refl eq_refl eq_refl eq_refl).
  reflexivity.
Defined.

Lemma load_failure_is_reported_and_released_witness :
  load_failed
    (trace (load_csv_to_sql_server lab_load_fault "orders.csv" "customers" "db1" "shop"
              None None true "," "utf-8" "append" (initial stocked)).2) = true
  /\ (load_csv_to_sql_server lab_load_fault "orders.csv" "customers" "db1" "shop"
        None None true "," "utf-8" "append" (initial stocked)).1 = Normal tt.
Proof.
  split; [reflexivity |].
  apply (load_failure_is_reported_and_released lab_load_fault "orders.csv" "customers"
           "db1" "shop" None None true "," "utf-8" "append" stocked).
  reflexivity.
Defined.

Lemma closing_line_iff_connection_opened_witness :
  existsb pyodbc_opened
    (trace (load_csv_to_sql_server lab "customers.csv" "customers" "db1" "shop"
              None None true "," "utf-8" "replace" (initial ∅)).2) = true
  /\ exists t,
       trace (load_csv_to_sql_server lab "customers.csv" "customers" "db1" "shop"
                None None true "," "utf-8" "replace" (initial ∅)).2
       = (t ++ [EvConnClose])%list.
Proof.
  split; [reflexivity |].
  apply (proj2 (closing_line_iff_connection_opened lab "customers.csv" "customers"
                  "db1" "shop" None None true "," "utf-8" "replace" ∅)).
  reflexivity.
Defined.

Lemma destination_changes_only_through_to_sql_witness :
  existsb is_to_sql
    (trace (load_csv_to_sql_server lab_no_engine "customers.csv" "customers" "db1" "shop"
              None None true "," "utf-8" "replace" (initial stocked)).2) = false
  /\ db (load_csv_to_sql_server lab_no_engine "customers.csv" "customers" "db1" "shop"
           None None true "," "utf-8" "replace" (initial stocked)).2 = stocked.
Proof.
  split; [reflexivity |].
  apply (destination_changes_only_through_to_sql lab_no_engine "customers.csv"
           "customers" "db1" "shop" None None true "," "utf-8" "replace" stocked).
  reflexivity.
Defined.


Lemma both_connections_use_one_connection_string_witness :
  build_connection_string "db1" "shop" (Some "ann") (Some "pw") false (initial ∅)
  = (Normal "DRIVER={ODBC Driver 17 for SQL Server};SERVER=db1;DATABASE=shop;UID=ann;PWD=pw",
     initial ∅)
  /\ Forall (from_connection_string lab
               "DRIVER={ODBC Driver 17 for SQL Server};SERVER=db1;DATABASE=shop;UID=ann;PWD=pw")
       (trace (load_csv_to_sql_server lab "customers.csv" "customers" "db1" "shop"
                 (Some "ann") (Some "pw") false "," "utf-8" "replace" (initial ∅)).2).
Proof.
  split; [reflexivity |].
  apply (both_connections_use_one_connection_string lab "customers.csv" "customers"
           "db1" "shop" (Some "ann") (Some "pw") false "," "utf-8" "replace" ∅).
  reflexivity.
Defined.

Lemma cli_credentials_reach_the_driver_witness :
  trusted_connection (cli "customers.csv" "customers" (Some "ann") None false append) = false
  /\ Forall (from_connection_string lab
               "DRIVER={ODBC Driver 17 for SQL Server};SERVER=127.0.0.1;DATABASE=pythondemo;UID=ann;PWD=P@ssw0rd!")
       (trace (main lab (cli "customers.csv" "customers" (Some "ann") None false append)
                 (initial ∅)).2).
Proof.
  split; [reflexivity |].
  apply (cli_credentials_reach_the_driver lab
           (cli "customers.csv" "customers" (Some "ann") None false append) ∅).
  reflexivity.
Defined.
